(** * Metabolic analysis report (vlamax.py): curves and heart-rate zones

    A shallow embedding of the calculation pass of [src/vlamax.py]: the form
    validation block, the lactate curve, the VO2 kinetics series, the fuel
    split and the heart-rate zones, followed by the properties the
    specification states about them.  Chart rendering, the formatting of
    the zone lines and the PDF export are left out: the page is modelled as
    the list of Streamlit calls made, with the data they are given, and a
    pass ends either by returning or by raising.

    Numbers.  The form delivers Python [int]s for the three heart rates and
    the sprint power and a Python [float] for VO2max.  Integers are [Z].
    Finite floating-point values are read as the exact rationals they stand
    for ([Q]); rounding to 53 bits is not modelled there.  What IS modelled
    of IEEE arithmetic is the part the script can reach without rounding:
    division by zero, which numpy answers with [nan] or an infinity instead
    of an exception, and the propagation of those values ([Np.float64]).
    The exponential of the VO2 series lives in [R].  The [int64] array that
    [np.full_like(time, ...)] returns is a list of [Z].

    The definitions over [Q] are the exact-arithmetic reading of the
    formulas.  They decide what does not depend on rounding: which branch
    divides by what, which values are [nan], how the integer cast cuts.
    Equalities, orderings and bounds of the lactate values DO depend on
    rounding; module [Binary64] repeats the formulas on binary64 numbers,
    the arithmetic the script runs on, and those properties are settled
    there, over the sprint powers 1 to 3000 W. *)

From Stdlib Require Import ZArith QArith Qminmax Qround Qreals Reals.
From Stdlib Require Import Lra Lqa Lia Bool String List Sorted.
From Stdlib Require PrimFloat.
Import ListNotations.

Open Scope Q_scope.

(** ** Rational helpers *)

Definition Qltb (a b : Q) : bool := negb (Qle_bool b a).

(** Rounding toward zero, the conversion C applies when a double is stored
    into an integer slot. *)
Definition Qtrunc (q : Q) : Z :=
  if (0 <=? Qnum q)%Z then Qfloor q else Qceiling q.

(** ** numpy float64 scalars *)

Module Np.

(** [Inf true] is minus infinity.  Signed zeros are not distinguished: a
    zero divisor is taken as [+0.0], which is what [0.2 * 0] produces. *)
Inductive float64 : Type :=
| Fin (q : Q)
| Inf (negative : bool)
| NaN.

Definition neg (x : float64) : float64 :=
  match x with
  | Fin a => Fin (- a)
  | Inf s => Inf (negb s)
  | NaN => NaN
  end.

Definition add (x y : float64) : float64 :=
  match x, y with
  | NaN, _ | _, NaN => NaN
  | Fin a, Fin b => Fin (a + b)
  | Inf s, Fin _ | Fin _, Inf s => Inf s
  | Inf s, Inf t => if Bool.eqb s t then Inf s else NaN
  end.

Definition sub (x y : float64) : float64 := add x (neg y).

Definition mul (x y : float64) : float64 :=
  match x, y with
  | NaN, _ | _, NaN => NaN
  | Fin a, Fin b => Fin (a * b)
  | Inf s, Fin b | Fin b, Inf s =>
      if Qeq_bool b 0 then NaN else Inf (xorb s (Qltb b 0))
  | Inf s, Inf t => Inf (xorb s t)
  end.

(** [x / y] on numpy scalars: no exception, [0/0] is [nan] and a non-zero
    numerator over zero is an infinity of the numerator's sign. *)
Definition div (x y : float64) : float64 :=
  match x, y with
  | NaN, _ | _, NaN => NaN
  | Fin a, Fin b =>
      if Qeq_bool b 0
      then (if Qeq_bool a 0 then NaN else Inf (Qltb a 0))
      else Fin (a / b)
  | Fin _, Inf _ => Fin 0
  | Inf s, Fin b => Inf (xorb s (Qltb b 0))
  | Inf _, Inf _ => NaN
  end.


Definition eqb (x y : float64) : bool :=
  match x, y with
  | Fin a, Fin b => Qeq_bool a b
  | Inf s, Inf t => Bool.eqb s t
  | _, _ => false
  end.

(** Equality of two values as numbers (no [nan] equals anything), in the
    exact reading of the finite ones. *)
Definition same_value (x y : float64) : Prop := eqb x y = true.

Definition is_finite (x : float64) : bool :=
  match x with Fin _ => true | _ => false end.

Definition is_nan (x : float64) : bool :=
  match x with NaN => true | _ => false end.

(** [np.linspace(start, stop, num)] with the default [endpoint=True]:
    [arange(0, num) * step + start] with [step = (stop - start) / (num - 1)],
    and the last element overwritten with [stop]. *)
Definition linspace (start stop : Q) (num : nat) : list Q :=
  match num with
  | O => []
  | S O => [start]
  | S div =>
      let step := (stop - start) / inject_Z (Z.of_nat div) in
      map (fun i => inject_Z (Z.of_nat i) * step + start) (seq 0 div)
        ++ [stop]
  end.

(** [np.arange(start, stop, step)] on integers, for a positive step. *)
Definition arange (start stop step : Z) : list Z :=
  map (fun i => (start + Z.of_nat i * step)%Z)
      (seq 0 (Z.to_nat ((stop - start + step - 1) / step))).

(** [np.clip(x, lo, hi)] is [minimum(maximum(x, lo), hi)]. *)
Definition clip (x lo hi : Q) : Q := Qmin (Qmax x lo) hi.

Definition int64_min : Z := (- 2 ^ 63)%Z.
Definition int64_max : Z := (2 ^ 63 - 1)%Z.

(** Storing a double into an [int64] slot ([copyto] with unsafe casting):
    the fraction is dropped.  A value outside the [int64] range has no
    portable result; x86-64 stores the most negative integer. *)
Definition cast_int64 (q : Q) : Z :=
  let z := Qtrunc q in
  if ((int64_min <=? z) && (z <=? int64_max))%Z then z else int64_min.

(** [np.full_like(a, fill)]: same shape AND same dtype as [a].  For an
    integer array [a] the fill value is cast to [int64]. *)
Definition full_like (a : list Z) (fill : Q) : list Z :=
  map (fun _ => cast_int64 fill) a.

End Np.

Import Np.

(** ** The form (lines 13-21) *)

(** [st.number_input] with an integer [min_value] yields an [int], with
    [min_value=0.0] a [float]; every field is at least its minimum, which
    is also its default. *)
Record Form : Type := mkForm {
  vo2max : Q;
  lt1_hr : Z;
  lt2_hr : Z;
  max_hr : Z;
  sprint_power : Z;
  notes : string;
  submitted : bool
}.

Definition form_in_range (f : Form) : Prop :=
  0 <= vo2max f /\
  (0 <= lt1_hr f /\ 0 <= lt2_hr f /\ 0 <= max_hr f /\ 0 <= sprint_power f)%Z.

(** ** The page the script writes to *)

(** A chart, with the arrays it plots. *)
Inductive figure : Type :=
| fig_lactate (x : list Q) (y : list float64)
| fig_vo2 (x : list Z) (demand : list Z) (uptake : list R)
| fig_energy (x : list Q) (fat carb : list Q).

(** [st_write zone low high] stands for the line
    [st.write(f"**{zone}:** {low:.0f}-{high:.0f} bpm")], before formatting. *)
Inductive widget : Type :=
| st_error (msg : string)
| st_success (msg : string)
| st_plotly_chart (fig : figure)
| st_subheader (text : string)
| st_write (zone : string) (low high : Q).

Inductive exn : Type := ValueError.

Inductive outcome (A : Type) : Type :=
| Returned (a : A)
| Raised (e : exn).

Arguments Returned {A} a.
Arguments Raised {A} e.

(** Streamlit calls append to the page and return; none of them stops the
    script.  An exception does: what follows is not run, what was written
    stays.  [Script A] threads the page through the pass. *)
Definition Script (A : Type) : Type :=
  list widget -> outcome A * list widget.

Definition ret {A : Type} (a : A) : Script A :=
  fun page => (Returned a, page).

Definition raise {A : Type} (e : exn) : Script A :=
  fun page => (Raised e, page).

Definition bind {A B : Type} (c : Script A) (k : A -> Script B) : Script B :=
  fun page =>
    match c page with
    | (Returned a, page') => k a page'
    | (Raised e, page') => (Raised e, page')
    end.

Definition emit (w : widget) : Script unit :=
  fun page => (Returned tt, page ++ [w]).

Notation "x <- c ;; k" := (bind c (fun x => k))
  (at level 61, c at next level, right associativity).
Notation "c ;; k" := (bind c (fun _ => k))
  (at level 61, right associativity).

Fixpoint for_each {A : Type} (l : list A) (body : A -> Script unit)
  : Script unit :=
  match l with
  | [] => ret tt
  | a :: l' => body a ;; for_each l' body
  end.

(** ** plotly traces *)

(** The keyword arguments the script hands to [update_traces], and the one
    it misses.  [px.area] builds scatter traces; a scatter trace has the
    properties [stackgroup] and [name], and none called [names]. *)
Inductive trace_property : Type := prop_stackgroup | prop_name | prop_names.

Definition scatter_has (p : trace_property) : bool :=
  match p with
  | prop_stackgroup | prop_name => true
  | prop_names => false
  end.

(** [fig.update_traces] checks every keyword against the trace type and
    raises [ValueError] on one the trace does not have. *)
Definition update_traces (kwargs : list trace_property) : Script unit :=
  if forallb scatter_has kwargs then ret tt else raise ValueError.

(** ** Validation block (lines 24-31) *)

Inductive verdict : Type := NonPositive | Unordered | LooksGood.

Definition check_inputs (f : Form) : verdict :=
  if Qle_bool (vo2max f) 0 || (lt1_hr f <=? 0)%Z || (lt2_hr f <=? 0)%Z
     || (max_hr f <=? 0)%Z || (sprint_power f <=? 0)%Z
  then NonPositive
  else if negb ((lt1_hr f <? lt2_hr f)%Z && (lt2_hr f <? max_hr f)%Z)
  then Unordered
  else LooksGood.

Definition msg_non_positive : string :=
  "Please enter all required fields with valid (non-zero) values.".
Definition msg_unordered : string :=
  "Ensure that LT1 HR < LT2 HR < Max HR for consistency.".
Definition msg_good : string :=
  "Inputs look good! Generating analysis...".

Definition validation (f : Form) : Script unit :=
  if submitted f then
    match check_inputs f with
    | NonPositive => emit (st_error msg_non_positive)
    | Unordered => emit (st_error msg_unordered)
    | LooksGood => emit (st_success msg_good)
    end
  else ret tt.

(** The profile invariant of the specification, as the validation block
    decides it. *)
Definition valid_profile (f : Form) : Prop := check_inputs f = LooksGood.

(** ** Lactate curve (lines 35-45) *)

(** The three right-hand sides of the loop body; [S] is the sprint power,
    already converted to a float by the multiplication it enters.  Finite
    values are exact rationals here: these definitions say which division
    is made and when it is by zero, not what a double rounds to (for that,
    [Binary64.lactate_at]). *)
Definition slow_rise (S p : Q) : float64 :=
  add (Fin 1) (mul (Fin 0.5) (div (Fin p) (Fin (0.6 * S)))).

Definition moderate_rise (S p : Q) : float64 :=
  add (Fin 1.5)
      (mul (Fin 2) (div (sub (Fin p) (Fin (0.6 * S))) (Fin (0.3 * S)))).

Definition sharp_rise (S p : Q) : float64 :=
  add (Fin 3.5)
      (mul (Fin 5) (div (sub (Fin p) (Fin (0.9 * S))) (Fin (0.2 * S)))).

Definition lactate_at (S p : Q) : float64 :=
  if Qltb p (0.6 * S) then slow_rise S p
  else if Qltb p (0.9 * S) then moderate_rise S p
  else sharp_rise S p.

(** The branch the loop body takes for [p], taken apart: the constant, the
    factor, and the two operands of its one division. *)
Record segment : Type := mkSegment {
  base : Q;
  slope : Q;
  numerator : Q;
  divisor : Q
}.

Definition segment_at (S p : Q) : segment :=
  if Qltb p (0.6 * S) then mkSegment 1 0.5 p (0.6 * S)
  else if Qltb p (0.9 * S) then mkSegment 1.5 2 (p - 0.6 * S) (0.3 * S)
  else mkSegment 3.5 5 (p - 0.9 * S) (0.2 * S).

(** The same loop body in plain rational arithmetic; it is what
    [lactate_at] computes whenever no divisor is zero
    ([lactate_at_finite] below). *)
Definition lactate_exact (S p : Q) : Q :=
  if Qltb p (0.6 * S) then 1 + 0.5 * (p / (0.6 * S))
  else if Qltb p (0.9 * S) then 1.5 + 2 * ((p - 0.6 * S) / (0.3 * S))
  else 3.5 + 5 * ((p - 0.9 * S) / (0.2 * S)).

(** [lactate_exact] as a function of the relative intensity [u = p / S],
    with the constant divisions carried out. *)
Definition shape (u : Q) : Q :=
  if Qltb u 0.6 then 1 + (5 # 6) * u
  else if Qltb u 0.9 then 1.5 + (20 # 3) * (u - 0.6)
  else 3.5 + 25 * (u - 0.9).

(** The intensities in exact arithmetic; the doubles the script computes
    ([Binary64.intensities]) can sit one unit in the last place off this
    grid. *)
Definition intensities (sprint_power : Z) : list Q :=
  map (fun x => x * inject_Z sprint_power) (linspace 0.4 1.1 15).

Definition lactate (sprint_power : Z) : list float64 :=
  map (lactate_at (inject_Z sprint_power)) (intensities sprint_power).

(** ** VO2 kinetics (lines 56-60) *)

Definition time : list Z := arange 0 300 5.
Definition tau : Z := 40.
Definition vo2_steady (vo2max : Q) : Q := vo2max * 0.85.

Definition vo2_actual_at (vo2max : Q) (t : Z) : R :=
  (Q2R (vo2_steady vo2max) * (1 - exp (- IZR t / IZR tau)))%R.

Definition vo2_actual (vo2max : Q) : list R :=
  map (vo2_actual_at vo2max) time.

(** [time] is an integer array, so [np.full_like(time, vo2_steady)] is one
    too. *)
Definition o2_demand (vo2max : Q) : list Z :=
  full_like time (vo2_steady vo2max).

(** ** Fuel split (lines 68-75) *)

Definition intensity_pct : list Q := linspace 50 100 11.
Definition fat_pct_at (x : Q) : Q := clip (80 - 8 * (x - 50) / 5) 0 80.
Definition carb_pct_at (x : Q) : Q := 100 - fat_pct_at x.
Definition total_cal : Q := 10.
Definition calories_at (x : Q) : Q := total_cal * (x / 50).
Definition fat_cal_at (x : Q) : Q := calories_at x * fat_pct_at x / 100.
Definition carb_cal_at (x : Q) : Q := calories_at x * carb_pct_at x / 100.

Definition fat_pct : list Q := map fat_pct_at intensity_pct.
Definition carb_pct : list Q := map carb_pct_at intensity_pct.
Definition calories : list Q := map calories_at intensity_pct.
Definition fat_cal : list Q := map fat_cal_at intensity_pct.
Definition carb_cal : list Q := map carb_cal_at intensity_pct.

(** ** Heart-rate zones (lines 83-93) *)

(** A Python dict keeps insertion order, so the zones are an association
    list.  Integer bounds are injected into [Q]; [/] is true division.
    This is the value the dict literal denotes; no pass gets as far as
    binding it (see [script]). *)
Definition zones (f : Form) : list (string * (Q * Q)) :=
  let LT1 := lt1_hr f in
  let LT2 := lt2_hr f in
  let HRmax := max_hr f in
  [ ("Zone 1 (Easy/Recovery)"%string, (0, inject_Z LT1));
    ("Zone 2 (Endurance)"%string, (inject_Z LT1, inject_Z (LT1 + LT2) / 2));
    ("Zone 3 (Threshold)"%string, (inject_Z (LT1 + LT2) / 2, inject_Z LT2));
    ("Zone 4 (Interval)"%string, (inject_Z LT2, 0.95 * inject_Z HRmax));
    ("Zone 5 (Max Effort)"%string, (0.95 * inject_Z HRmax, inject_Z HRmax)) ].

(** ** The pass (lines 24-97) *)

(** The arrays bound by lines 35-75. *)
Record Analysis : Type := mkAnalysis {
  a_intensities : list Q;
  a_lactate : list float64;
  a_time : list Z;
  a_o2_demand : list Z;
  a_vo2_actual : list R;
  a_intensity_pct : list Q;
  a_fat_cal : list Q;
  a_carb_cal : list Q
}.

Definition curves (f : Form) : Analysis :=
  {| a_intensities := intensities (sprint_power f);
     a_lactate := lactate (sprint_power f);
     a_time := time;
     a_o2_demand := o2_demand (vo2max f);
     a_vo2_actual := vo2_actual (vo2max f);
     a_intensity_pct := intensity_pct;
     a_fat_cal := fat_cal;
     a_carb_cal := carb_cal |}.

(** The statements after the validation block sit at the top level of the
    module, not under its [else]: they are reached on every pass.  Line 79
    calls [update_traces(stackgroup="one", names=[...])] on the energy
    figure. *)
Definition script (f : Form) : Script unit :=
  validation f ;;
  emit (st_plotly_chart
          (fig_lactate (intensities (sprint_power f))
                       (lactate (sprint_power f)))) ;;
  emit (st_plotly_chart
          (fig_vo2 time (o2_demand (vo2max f)) (vo2_actual (vo2max f)))) ;;
  update_traces [prop_stackgroup; prop_names] ;;
  emit (st_plotly_chart (fig_energy intensity_pct fat_cal carb_cal)) ;;
  emit (st_subheader "Personalized Heart Rate Zones"%string) ;;
  for_each (zones f)
    (fun z => emit (st_write (fst z) (fst (snd z)) (snd (snd z)))).

(** The arrays bound and the page written when the pass ends.  Every
    assignment of lines 35-75 comes before the first statement that can
    raise, so all of them are bound however the pass ends. *)
Definition run (f : Form) : Analysis * list widget :=
  (curves f, snd (script f [])).

(** ** Reading the results *)

(** The [i]-th entry of the zones dict, counted from 0, and its bounds. *)
Definition zone (f : Form) (i : nat) : string * (Q * Q) :=
  nth i (zones f) (EmptyString, (0, 0)).
Definition lower (f : Form) (i : nat) : Q := fst (snd (zone f i)).
Definition upper (f : Form) (i : nat) : Q := snd (snd (zone f i)).

(** The ordering of the zone boundaries:
    [lt1Hr < (lt1Hr + lt2Hr)/2 < lt2Hr < 0.95 maxHr < maxHr], read off the
    generated zones (upper bounds of zones 2 and 4). *)
Definition boundary_chain (f : Form) : Prop :=
  inject_Z (lt1_hr f) < upper f 1 /\
  upper f 1 < inject_Z (lt2_hr f) /\
  inject_Z (lt2_hr f) < upper f 3 /\
  upper f 3 < inject_Z (max_hr f).

(** Sample forms. *)
Definition scenario_1 : Form := mkForm 50 140 165 190 800 EmptyString true.
Definition inverted : Form := mkForm 50 165 140 190 800 EmptyString true.
Definition narrow_zone_4 : Form := mkForm 50 140 185 190 800 EmptyString true.
Definition zero_sprint : Form := mkForm 50 140 165 190 0 EmptyString true.
Definition form_default : Form := mkForm 0 0 0 0 0 EmptyString false.

(** The two charts drawn before line 79. *)
Definition drawn_charts (f : Form) : list widget :=
  [ st_plotly_chart
      (fig_lactate (intensities (sprint_power f)) (lactate (sprint_power f)));
    st_plotly_chart
      (fig_vo2 time (o2_demand (vo2max f)) (vo2_actual (vo2max f))) ].

(** The widgets of lines 80-97: energy chart, subheader, zone lines. *)
Definition after_line_79 (w : widget) : bool :=
  match w with
  | st_plotly_chart (fig_energy _ _ _) | st_subheader _ | st_write _ _ _ =>
      true
  | _ => false
  end.

(** ** The same formulas on IEEE doubles *)

(** The curves once more, on the kernel's binary64 numbers with their
    rounding, for replaying concrete samples: the rational model above
    idealises rounding away, and this one shows what a double computes at
    the points the specification names. *)
Module Binary64.
Import PrimFloat.
Local Open Scope float_scope.
#[local] Set Warnings "-inexact-float".

Fixpoint of_nat (n : nat) : float :=
  match n with O => 0 | S n' => of_nat n' + 1 end.

Definition linspace (start stop : float) (num : nat) : list float :=
  match num with
  | O => []
  | S O => [start]
  | S div =>
      let step := (stop - start) / of_nat div in
      map (fun i => of_nat i * step + start) (seq 0 div) ++ [stop]
  end.

Definition clip (x lo hi : float) : float :=
  let m := if x <? lo then lo else x in if hi <? m then hi else m.

Definition slow_rise (S p : float) : float := 1 + 0.5 * (p / (0.6 * S)).
Definition moderate_rise (S p : float) : float :=
  1.5 + 2 * ((p - 0.6 * S) / (0.3 * S)).
Definition sharp_rise (S p : float) : float :=
  3.5 + 5 * ((p - 0.9 * S) / (0.2 * S)).

Definition lactate_at (S p : float) : float :=
  if p <? 0.6 * S then slow_rise S p
  else if p <? 0.9 * S then moderate_rise S p
  else sharp_rise S p.

Definition intensities (sprint_power : float) : list float :=
  map (fun x => x * sprint_power) (linspace 0.4 1.1 15).
Definition lactate (sprint_power : float) : list float :=
  map (lactate_at sprint_power) (intensities sprint_power).

Definition vo2_steady (vo2max : float) : float := vo2max * 0.85.

Definition intensity_pct : list float := linspace 50 100 11.
Definition fat_pct_at (x : float) : float := clip (80 - 8 * (x - 50) / 5) 0 80.
Definition carb_pct_at (x : float) : float := 100 - fat_pct_at x.
Definition calories_at (x : float) : float := 10 * (x / 50).
Definition fat_cal_at (x : float) : float :=
  calories_at x * fat_pct_at x / 100.
Definition carb_cal_at (x : float) : float :=
  calories_at x * carb_pct_at x / 100.

Definition zone_4 (LT2 HRmax : float) : float * float := (LT2, 0.95 * HRmax).
Definition zone_5 (HRmax : float) : float * float := (0.95 * HRmax, HRmax).

Fixpoint non_decreasing (l : list float) : bool :=
  match l with
  | x :: (y :: _) as l' => (x <=? y) && non_decreasing l'
  | _ => true
  end.

(** The sprint powers the checks range over: 1, 2, ..., 3000 W, each an
    integer the form can deliver, exact as a double. *)
Fixpoint count_up (x : float) (n : nat) : list float :=
  match n with O => [] | S n' => x :: count_up (x + 1) n' end.

Definition sprint_powers : list float := count_up 1 3000.


Definition within (lo hi x : float) : bool :=
  (lo - 1e-9 <=? x) && (x <=? hi + 1e-9).


End Binary64.

(** * Properties *)

(** ** Comparisons on rationals *)

Lemma Qltb_lt (a b : Q) : Qltb a b = true <-> a < b.
Proof.
  unfold Qltb. rewrite negb_true_iff, <- not_true_iff_false, Qle_bool_iff.
  split; [apply Qnot_le_lt | apply Qlt_not_le].
Qed.

Lemma Qltb_ge (a b : Q) : Qltb a b = false <-> b <= a.
Proof.
  unfold Qltb. rewrite negb_false_iff. apply Qle_bool_iff.
Qed.

Lemma Qeq_bool_false (a : Q) : ~ a == 0 -> Qeq_bool a 0 = false.
Proof.
  intros H. apply not_true_iff_false. rewrite Qeq_bool_iff. exact H.
Qed.

Lemma Qltb_scale (S p c : Q) : 0 < S -> Qltb p (c * S) = Qltb (p / S) c.
Proof.
  intros HS.
  assert (Hp : p == (p / S) * S) by (field; lra).
  destruct (Qltb (p / S) c) eqn:E.
  - apply Qltb_lt in E. apply Qltb_lt. rewrite Hp.
    apply Qmult_lt_compat_r; assumption.
  - apply Qltb_ge in E. apply Qltb_ge. rewrite Hp.
    apply Qmult_le_compat_r; lra.
Qed.

Lemma same_value_Fin (a b : Q) : same_value (Fin a) (Fin b) <-> a == b.
Proof. unfold same_value; simpl. apply Qeq_bool_iff. Qed.


(** ** Sorted lists *)

Section SortedMap.
Context {A B : Type} (RA : A -> A -> Prop) (RB : B -> B -> Prop).
Variable f : A -> B.
Hypothesis f_mono : forall x y, RA x y -> RB (f x) (f y).


End SortedMap.

(** ** The lactate loop body *)

(** [segment_at] is a faithful reading of the branch taken. *)
Lemma lactate_at_segment (S p : Q) :
  let s := segment_at S p in
  lactate_at S p =
  add (Fin (base s))
      (mul (Fin (slope s)) (div (Fin (numerator s)) (Fin (divisor s)))).
Proof.
  unfold lactate_at, segment_at, slow_rise, moderate_rise, sharp_rise.
  destruct (Qltb p (0.6 * S)); [reflexivity|].
  destruct (Qltb p (0.9 * S)); reflexivity.
Qed.

Lemma lactate_at_finite (S p : Q) :
  ~ S == 0 -> lactate_at S p = Fin (lactate_exact S p).
Proof.
  intros HS.
  unfold lactate_at, lactate_exact, slow_rise, moderate_rise, sharp_rise.
  assert (H6 : Qeq_bool (0.6 * S) 0 = false) by (apply Qeq_bool_false; lra).
  assert (H3 : Qeq_bool (0.3 * S) 0 = false) by (apply Qeq_bool_false; lra).
  assert (H2 : Qeq_bool (0.2 * S) 0 = false) by (apply Qeq_bool_false; lra).
  destruct (Qltb p (0.6 * S)); [|destruct (Qltb p (0.9 * S))];
    cbn [add mul div sub neg]; rewrite ?H6, ?H3, ?H2; reflexivity.
Qed.

Lemma lactate_exact_shape (S p : Q) :
  0 < S -> lactate_exact S p == shape (p / S).
Proof.
  intros HS. unfold lactate_exact, shape.
  rewrite !(Qltb_scale S p) by assumption.
  destruct (Qltb (p / S) 0.6); [field; lra|].
  destruct (Qltb (p / S) 0.9); field; lra.
Qed.






(** ** The segment boundaries in exact arithmetic *)


(** ** Order in exact arithmetic *)


(** ** Division by zero in the lactate loop *)

(** C10.  The loop body divides without a guard.  With the sprint power 0,
    the default of the form, every one of the 15 samples takes the last
    branch and divides 0 by 0: the value is [nan] and nothing is raised.
    With a positive sprint power the divisor of the branch taken is never
    zero and every value is finite; over the sprint powers the form can
    deliver, all 15 values are finite exactly when the sprint power is
    positive. *)
Theorem lactate_division_by_zero :
  (sprint_power form_default = 0%Z /\
   a_lactate (fst (run form_default)) = repeat NaN 15 /\
   Forall (fun p => numerator (segment_at 0 p) == 0 /\
                    divisor (segment_at 0 p) == 0 /\
                    div (Fin (numerator (segment_at 0 p)))
                        (Fin (divisor (segment_at 0 p))) = NaN /\
                    lactate_at 0 p = NaN)
          (intensities 0)) /\
  (forall S p : Q, 0 < S ->
     ~ divisor (segment_at S p) == 0 /\
     is_finite (lactate_at S p) = true) /\
  (forall sp : Z, (0 <= sp)%Z ->
     (forallb is_finite (lactate sp) = true <-> (0 < sp)%Z)).
Proof.
  assert (Hpos : forall S p : Q, 0 < S -> is_finite (lactate_at S p) = true).
  { intros S p HS. rewrite lactate_at_finite by lra. reflexivity. }
  split; [|split].
  - split; [reflexivity|]. split; [reflexivity|].
    unfold intensities, linspace; simpl.
    repeat (constructor; [repeat split; reflexivity|]). constructor.
  - intros S p HS. split; [|apply Hpos, HS].
    unfold segment_at.
    destruct (Qltb p (0.6 * S)); [|destruct (Qltb p (0.9 * S))];
      simpl; lra.
  - intros sp Hsp. split.
    + intros Hfin. destruct (Z.eq_dec sp 0) as [->|]; [discriminate Hfin|lia].
    + intros Hlt. unfold lactate. apply forallb_forall.
      intros x Hx. apply in_map_iff in Hx. destruct Hx as (p & <- & _).
      apply Hpos. change 0 with (inject_Z 0). rewrite <- Zlt_Qlt. exact Hlt.
Qed.

Lemma lactate_division_by_zero_witness :
  0 < 800 /\ (0 <= 800)%Z /\
  is_finite (lactate_at 800 480) = true /\
  (forallb is_finite (lactate 800) = true <-> (0 < 800)%Z).
Proof.
  split; [reflexivity|]. split; [discriminate|]. split.
  - apply (proj1 (proj2 lactate_division_by_zero) 800 480). reflexivity.
  - apply (proj2 (proj2 lactate_division_by_zero) 800%Z). discriminate.
Defined.

(** ** Validation *)

Lemma valid_profile_iff (f : Form) :
  valid_profile f <->
  0 < vo2max f /\
  (0 < lt1_hr f /\ 0 < lt2_hr f /\ 0 < max_hr f /\ 0 < sprint_power f /\
   lt1_hr f < lt2_hr f /\ lt2_hr f < max_hr f)%Z.
Proof.
  unfold valid_profile, check_inputs.
  destruct (Qle_bool (vo2max f) 0) eqn:Ev;
    [apply Qle_bool_iff in Ev | apply not_true_iff_false in Ev;
                                rewrite Qle_bool_iff in Ev];
    destruct (Z.leb_spec (lt1_hr f) 0); destruct (Z.leb_spec (lt2_hr f) 0);
    destruct (Z.leb_spec (max_hr f) 0);
    destruct (Z.leb_spec (sprint_power f) 0);
    destruct (Z.ltb_spec (lt1_hr f) (lt2_hr f));
    destruct (Z.ltb_spec (lt2_hr f) (max_hr f)); simpl;
    split; try discriminate; try reflexivity;
    try (intros [Hv Hz]; exfalso; first [lia | lra]).
  intros _. split; [lra | lia].
Qed.

(** ** Heart-rate zones *)

(** C2 as stated fails: validation does not bound [lt2Hr] by 95% of
    [maxHr].  With LT2 = 185 and a maximum of 190 the form is accepted and
    zone 4 runs from 185 down to 180.5. *)
Lemma boundary_chain_counterexample :
  valid_profile narrow_zone_4 /\ ~ boundary_chain narrow_zone_4.
Proof.
  split; [reflexivity|].
  intros (_ & _ & H & _). vm_compute in H. discriminate H.
Qed.

(** C2, amended.  For every accepted profile
    [lt1Hr < (lt1Hr + lt2Hr)/2 < lt2Hr < maxHr] and [0.95 maxHr < maxHr];
    the link [lt2Hr < 0.95 maxHr] holds exactly when
    [20 lt2Hr < 19 maxHr]. *)
Theorem boundary_order :
  forall f : Form, valid_profile f ->
    upper f 1 == inject_Z (lt1_hr f + lt2_hr f) / 2 /\
    upper f 3 == 0.95 * inject_Z (max_hr f) /\
    inject_Z (lt1_hr f) < upper f 1 /\
    upper f 1 < inject_Z (lt2_hr f) /\
    inject_Z (lt2_hr f) < inject_Z (max_hr f) /\
    upper f 3 < inject_Z (max_hr f) /\
    (inject_Z (lt2_hr f) < upper f 3 <->
     (20 * lt2_hr f < 19 * max_hr f)%Z).
Proof.
  intros f Hf. apply valid_profile_iff in Hf.
  destruct Hf as (_ & H1 & H2 & Hm & _ & H12 & H2m).
  change (upper f 1) with (inject_Z (lt1_hr f + lt2_hr f) / 2).
  change (upper f 3) with (0.95 * inject_Z (max_hr f)).
  rewrite inject_Z_plus.
  rewrite Zlt_Qlt in H1, H2, Hm, H12, H2m.
  change (inject_Z 0) with 0 in *.
  assert (Hhalf : forall x, x / 2 == (1 # 2) * x) by (intros; field).
  rewrite Hhalf.
  repeat split; try reflexivity; try lra.
  - intros H. rewrite Zlt_Qlt, !inject_Z_mult.
    change (inject_Z 20) with 20. change (inject_Z 19) with 19. lra.
  - intros H. rewrite Zlt_Qlt, !inject_Z_mult in H.
    change (inject_Z 20) with 20 in H. change (inject_Z 19) with 19 in H.
    lra.
Qed.

Lemma boundary_order_witness :
  valid_profile scenario_1 /\
  inject_Z (lt1_hr scenario_1) < upper scenario_1 1.
Proof.
  split; [reflexivity|].
  exact (proj1 (proj2 (proj2 (boundary_order scenario_1 eq_refl)))).
Defined.

(** C3.  For every accepted profile the zones dict has exactly five
    entries, with the five names in order (no two alike, so no entry
    overwrites another), the bounds [0, LT1], [LT1, (LT1+LT2)/2],
    [(LT1+LT2)/2, LT2], [LT2, 0.95 HRmax], [0.95 HRmax, HRmax], each zone
    starting where the previous one ends.  For the profile
    (50, 140, 165, 190, 800) zone 4 is [165, 180.5] and zone 5 is
    [180.5, 190]. *)
Theorem zones_contract :
  (forall f : Form, valid_profile f ->
     List.length (zones f) = 5%nat /\
     map fst (zones f) =
       [ "Zone 1 (Easy/Recovery)"; "Zone 2 (Endurance)";
         "Zone 3 (Threshold)"; "Zone 4 (Interval)";
         "Zone 5 (Max Effort)" ]%string /\
     NoDup (map fst (zones f)) /\
     map snd (zones f) =
       [ (0, inject_Z (lt1_hr f));
         (inject_Z (lt1_hr f), inject_Z (lt1_hr f + lt2_hr f) / 2);
         (inject_Z (lt1_hr f + lt2_hr f) / 2, inject_Z (lt2_hr f));
         (inject_Z (lt2_hr f), 0.95 * inject_Z (max_hr f));
         (0.95 * inject_Z (max_hr f), inject_Z (max_hr f)) ] /\
     (forall i : nat, (i < 4)%nat -> upper f i = lower f (S i))) /\
  (fst (zone scenario_1 3) = "Zone 4 (Interval)"%string /\
   lower scenario_1 3 == 165 /\ upper scenario_1 3 == 180.5 /\
   fst (zone scenario_1 4) = "Zone 5 (Max Effort)"%string /\
   lower scenario_1 4 == 180.5 /\ upper scenario_1 4 == 190).
Proof.
  split; [|repeat split; reflexivity].
  intros f _. repeat split.
  - repeat (constructor; [simpl; intuition discriminate|]). constructor.
  - intros i Hi.
    destruct i as [|[|[|[|i]]]]; try reflexivity. lia.
Qed.

Lemma zones_contract_witness :
  valid_profile scenario_1 /\ List.length (zones scenario_1) = 5%nat.
Proof.
  split; [reflexivity|].
  apply (proj1 zones_contract scenario_1). reflexivity.
Defined.

(** ** Lists read by index *)

Lemma nth_map_lt {A B : Type} (f : A -> B) (l : list A) (i : nat)
      (d : A) (d' : B) :
  (i < List.length l)%nat -> nth i (map f l) d' = f (nth i l d).
Proof.
  intros Hi. rewrite (nth_indep _ d' (f d)) by (rewrite length_map; exact Hi).
  apply map_nth.
Qed.

Lemma StronglySorted_nth {A : Type} (R : A -> A -> Prop) (l : list A) :
  (forall a, R a a) -> StronglySorted R l ->
  forall (i j : nat) (d : A),
    (i <= j < List.length l)%nat -> R (nth i l d) (nth j l d).
Proof.
  intros Hrefl Hl. induction Hl as [|a l Hl IH Ha]; intros i j d [Hij Hj].
  - simpl in Hj. lia.
  - destruct i as [|i], j as [|j]; simpl in *; try lia.
    + apply Hrefl.
    + rewrite Forall_forall in Ha. apply Ha, nth_In. lia.
    + apply IH. lia.
Qed.

(** ** Fuel split *)

Lemma fat_plus_carb (x : Q) : fat_pct_at x + carb_pct_at x == 100.
Proof. unfold carb_pct_at. ring. Qed.

Lemma fat_cal_plus_carb_cal (x : Q) :
  fat_cal_at x + carb_cal_at x == calories_at x.
Proof.
  unfold fat_cal_at, carb_cal_at, carb_pct_at.
  generalize (fat_pct_at x) (calories_at x). intros a c. field.
Qed.

Lemma fat_pct_antitone (x y : Q) : x <= y -> fat_pct_at y <= fat_pct_at x.
Proof.
  intros Hxy. unfold fat_pct_at, clip.
  apply Q.min_le_compat_r, Q.max_le_compat_r.
  assert (H5 : forall z, 8 * (z - 50) / 5 == (8 # 5) * (z - 50))
    by (intros; field).
  rewrite !H5. lra.
Qed.

Lemma intensity_pct_sorted : StronglySorted Qle intensity_pct.
Proof.
  apply Sorted_StronglySorted; [exact Qle_trans|].
  unfold intensity_pct, linspace; simpl.
  repeat (constructor; try (vm_compute; discriminate)).
Qed.

(** C8.  The fuel split has 11 samples, at intensities rising from 50 to
    100.  At every sample [fat_pct + carb_pct] is 100 and
    [fat_cal + carb_cal] is the total [calories]; [fat_pct] does not
    increase from one sample to a later one. *)
Theorem fuel_split_samples :
  List.length intensity_pct = 11%nat /\
  nth 0 intensity_pct 0 == 50 /\ nth 10 intensity_pct 0 == 100 /\
  (forall i : nat, (i < 11)%nat ->
     nth i fat_pct 0 + nth i carb_pct 0 == 100 /\
     nth i fat_cal 0 + nth i carb_cal 0 == nth i calories 0) /\
  (forall i j : nat, (i <= j < 11)%nat ->
     nth i intensity_pct 0 <= nth j intensity_pct 0 /\
     nth j fat_pct 0 <= nth i fat_pct 0).
Proof.
  assert (Hlen : List.length intensity_pct = 11%nat) by reflexivity.
  split; [exact Hlen|].
  split; [reflexivity|]. split; [reflexivity|]. split.
  - intros i Hi. unfold fat_pct, carb_pct, fat_cal, carb_cal, calories.
    rewrite !(nth_map_lt _ intensity_pct i 0) by (rewrite Hlen; exact Hi).
    split; [apply fat_plus_carb | apply fat_cal_plus_carb_cal].
  - intros i j Hij.
    assert (Hx : nth i intensity_pct 0 <= nth j intensity_pct 0).
    { apply StronglySorted_nth;
        [exact Qle_refl | exact intensity_pct_sorted | rewrite Hlen; exact Hij]. }
    split; [exact Hx|]. unfold fat_pct.
    rewrite !(nth_map_lt _ intensity_pct _ 0) by (rewrite Hlen; lia).
    apply fat_pct_antitone, Hx.
Qed.

Lemma fuel_split_samples_witness :
  (3 < 11)%nat /\ (3 <= 7 < 11)%nat /\
  nth 3 fat_pct 0 + nth 3 carb_pct 0 == 100 /\
  nth 7 fat_pct 0 <= nth 3 fat_pct 0.
Proof.
  destruct fuel_split_samples as (_ & _ & _ & Hsum & Hmono).
  split; [lia|]. split; [lia|]. split.
  - apply (Hsum 3%nat). lia.
  - apply (Hmono 3%nat 7%nat). lia.
Defined.

(** ** VO2 kinetics *)

Lemma time_samples : time = map (fun i => (5 * Z.of_nat i)%Z) (seq 0 60).
Proof. reflexivity. Qed.

(** The demand series is constant, but at the integer part of the steady
    state, not at the steady state. *)
Lemma o2_demand_constant (v : Q) :
  o2_demand v = repeat (cast_int64 (vo2_steady v)) 60.
Proof. reflexivity. Qed.

Lemma Q2R_steady_50 : Q2R (vo2_steady 50) = 42.5%R.
Proof.
  change (Q2R (4250 # 100) = 42.5%R). unfold Q2R; cbn [Qnum Qden]. Lra.lra.
Qed.

Lemma exp_295_40 : (85 < exp (295 / 40))%R.
Proof.
  set (a := (295 / 320)%R).
  assert (Ha : (1 + a < exp a)%R) by (apply exp_ineq1; unfold a; Lra.lra).
  replace (295 / 40)%R with ((a + a + (a + a)) + (a + a + (a + a)))%R
    by (unfold a; Lra.lra).
  rewrite !exp_plus.
  set (y := exp a) in *. unfold a in Ha.
  assert (H2 : (3.6 < y * y)%R) by Lra.nra.
  assert (H4 : (12.9 < y * y * (y * y))%R) by Lra.nra.
  Lra.nra.
Qed.

Lemma vo2_actual_50_295 : (42 < vo2_actual_at 50 295)%R.
Proof.
  unfold vo2_actual_at, tau. rewrite Q2R_steady_50.
  replace (- IZR 295 / IZR 40)%R with (- (295 / 40))%R by Lra.lra.
  rewrite exp_Ropp.
  pose proof exp_295_40 as H.
  assert (H' : (/ exp (295 / 40) < / 85)%R).
  { apply Rinv_lt_contravar; [|exact H].
    apply Rmult_lt_0_compat; Lra.lra. }
  Lra.lra.
Qed.

(** Against the steady state itself the uptake stays strictly below, at
    every time: the two series can only cross through the integer cast. *)
Lemma vo2_actual_below_steady (v : Q) (t : Z) :
  0 < v -> (vo2_actual_at v t < Q2R (vo2_steady v))%R.
Proof.
  intros Hv. unfold vo2_actual_at.
  assert (Hs : (0 < Q2R (vo2_steady v))%R).
  { unfold vo2_steady. rewrite Q2R_mult. apply Qlt_Rlt in Hv.
    rewrite RMicromega.Q2R_0 in Hv.
    apply Rmult_lt_0_compat; [exact Hv|]. unfold Q2R; simpl; Lra.lra. }
  pose proof (exp_pos (- IZR t / IZR tau)) as He.
  Lra.nra.
Qed.

(** C4, on the code.  For VO2max = 50 the steady state is 42.5, but the
    demand series is [np.full_like] of the integer array [time]: all 60
    entries are the integer 42, none is 42.5. *)
Theorem o2_demand_truncated :
  vo2_steady 50 == 42.5 /\
  o2_demand 50 = repeat 42%Z 60 /\
  Forall (fun d => ~ inject_Z d == 0.85 * 50) (o2_demand 50).
Proof.
  split; [reflexivity|]. split; [reflexivity|].
  rewrite o2_demand_constant. apply Forall_forall.
  intros d Hd. apply repeat_spec in Hd. subst d.
  vm_compute. discriminate.
Qed.

(** C5, on the code.  For VO2max = 50 the last sample (index 59, t = 295 s)
    of the uptake series lies above the demand series: the demand was cut
    to 42 while the uptake has risen past 42.47. *)
Theorem vo2_actual_exceeds_o2_demand :
  nth 59 time 0%Z = 295%Z /\
  nth 59 (vo2_actual 50) 0%R = vo2_actual_at 50 295 /\
  nth 59 (o2_demand 50) 0%Z = 42%Z /\
  (IZR (nth 59 (o2_demand 50) 0%Z) < nth 59 (vo2_actual 50) 0%R)%R.
Proof.
  assert (Hv : nth 59 (vo2_actual 50) 0%R = vo2_actual_at 50 295).
  { unfold vo2_actual.
    rewrite (nth_map_lt _ time 59 0%Z) by (vm_compute; lia). reflexivity. }
  split; [reflexivity|]. split; [exact Hv|]. split; [reflexivity|].
  rewrite Hv. change (nth 59 (o2_demand 50) 0%Z) with 42%Z.
  exact vo2_actual_50_295.
Qed.

(** ** The pass *)

Lemma Qnum_nonneg (q : Q) : (0 <= Qnum q)%Z <-> 0 <= q.
Proof. unfold Qle; simpl. rewrite Z.mul_1_r. reflexivity. Qed.

Lemma update_traces_names (page : list widget) :
  update_traces [prop_stackgroup; prop_names] page = (Raised ValueError, page).
Proof. reflexivity. Qed.

(** Whatever the validation block wrote, the pass draws the lactate and
    the VO2 chart and is stopped by line 79. *)
Lemma script_stops (f : Form) :
  script f [] =
  (Raised ValueError, snd (validation f []) ++ drawn_charts f).
Proof.
  unfold script, validation, drawn_charts.
  destruct (submitted f); [destruct (check_inputs f)|]; reflexivity.
Qed.

(** C1, on the code.  The inverted profile (LT1 = 165, LT2 = 140) is
    rejected by the validation block with an error message, and the pass
    goes on: the lactate curve (15 finite samples) and the VO2 series (60
    samples each) are computed and both charts are drawn after the
    message, and the fuel arrays are computed, before the pass is stopped
    at line 79, by a [ValueError] and not by the validation.  A sprint
    power of 0 draws the other message and the same two charts, the
    lactate chart with [nan] throughout. *)
Theorem invalid_profile_curves_generated :
  (form_in_range inverted /\ form_in_range zero_sprint) /\
  (check_inputs inverted = Unordered /\
   script inverted [] =
     (Raised ValueError,
      [ st_error msg_unordered;
        st_plotly_chart (fig_lactate (intensities 800) (lactate 800));
        st_plotly_chart (fig_vo2 time (o2_demand 50) (vo2_actual 50)) ]) /\
   List.length (lactate 800) = 15%nat /\
   forallb is_finite (lactate 800) = true /\
   List.length (o2_demand 50) = 60%nat /\
   List.length (vo2_actual 50) = 60%nat /\
   List.length (a_fat_cal (fst (run inverted))) = 11%nat) /\
  (check_inputs zero_sprint = NonPositive /\
   script zero_sprint [] =
     (Raised ValueError,
      [ st_error msg_non_positive;
        st_plotly_chart (fig_lactate (intensities 0) (repeat NaN 15));
        st_plotly_chart (fig_vo2 time (o2_demand 50) (vo2_actual 50)) ])).
Proof.
  split; [|split].
  - unfold form_in_range; simpl. repeat split; discriminate.
  - split; [reflexivity|]. split; [rewrite script_stops; reflexivity|].
    split; [reflexivity|]. split; [reflexivity|]. split; [reflexivity|].
    split; [unfold vo2_actual; rewrite length_map; reflexivity|].
    reflexivity.
  - split; [reflexivity|]. rewrite script_stops. reflexivity.
Qed.


(** ** Replay on IEEE doubles *)

Section Binary64Replay.
Import PrimFloat.
Local Open Scope float_scope.

(** The concrete samples of the specification, computed with binary64
    rounding: the values agree with the rational model. *)
Lemma binary64_zones_scenario_1 :
  Binary64.zone_4 165 190 = (165, 180.5) /\
  Binary64.zone_5 190 = (180.5, 190).
Proof. split; reflexivity. Qed.

Lemma binary64_lactate_800 :
  0.6 * 800 = 480 /\
  Binary64.slow_rise 800 480 = 1.5 /\
  Binary64.moderate_rise 800 480 = 1.5 /\
  Binary64.lactate_at 800 480 = 1.5 /\
  Binary64.non_decreasing (Binary64.lactate 800) = true.
Proof. repeat split; reflexivity. Qed.

Lemma binary64_lactate_0 : Binary64.lactate 0 = repeat PrimFloat.nan 15.
Proof. reflexivity. Qed.

Lemma binary64_steady_50 : Binary64.vo2_steady 50 = 42.5.
Proof. reflexivity. Qed.

Lemma binary64_fuel_split :
  Binary64.intensity_pct = [50; 55; 60; 65; 70; 75; 80; 85; 90; 95; 100] /\
  map Binary64.fat_pct_at Binary64.intensity_pct
    = [80; 72; 64; 56; 48; 40; 32; 24; 16; 8; 0] /\
  forallb (fun x => PrimFloat.eqb
                      (PrimFloat.add (Binary64.fat_pct_at x)
                                     (Binary64.carb_pct_at x)) 100)
          Binary64.intensity_pct = true /\
  forallb (fun x => PrimFloat.eqb
                      (PrimFloat.add (Binary64.fat_cal_at x)
                                     (Binary64.carb_cal_at x))
                      (Binary64.calories_at x))
          Binary64.intensity_pct = true.
Proof. repeat split; reflexivity. Qed.

End Binary64Replay.

(** * Further properties of the script *)

(** ** Validation block *)

(** X1.  The three outcomes of the validation block.  The non-zero message
    is drawn as soon as one of the five inputs is zero or negative,
    whatever the order of the heart rates; the ordering message needs all
    five positive and [lt1_hr < lt2_hr < max_hr] broken; the success
    message needs all five positive and the order kept. *)
Theorem check_inputs_cases (f : Form) :
  (check_inputs f = NonPositive <->
     vo2max f <= 0 \/
     (lt1_hr f <= 0 \/ lt2_hr f <= 0 \/ max_hr f <= 0 \/
      sprint_power f <= 0)%Z) /\
  (check_inputs f = Unordered <->
     0 < vo2max f /\
     (0 < lt1_hr f /\ 0 < lt2_hr f /\ 0 < max_hr f /\ 0 < sprint_power f)%Z /\
     (lt2_hr f <= lt1_hr f \/ max_hr f <= lt2_hr f)%Z) /\
  (check_inputs f = LooksGood <->
     0 < vo2max f /\
     (0 < lt1_hr f /\ 0 < lt2_hr f /\ 0 < max_hr f /\ 0 < sprint_power f /\
      lt1_hr f < lt2_hr f /\ lt2_hr f < max_hr f)%Z).
Proof.
  split; [|split; [|apply valid_profile_iff]]; unfold check_inputs;
  (destruct (Qle_bool (vo2max f) 0) eqn:Ev;
    [apply Qle_bool_iff in Ev | apply not_true_iff_false in Ev;
                                rewrite Qle_bool_iff in Ev];
    destruct (Z.leb_spec (lt1_hr f) 0); destruct (Z.leb_spec (lt2_hr f) 0);
    destruct (Z.leb_spec (max_hr f) 0);
    destruct (Z.leb_spec (sprint_power f) 0);
    destruct (Z.ltb_spec (lt1_hr f) (lt2_hr f));
    destruct (Z.ltb_spec (lt2_hr f) (max_hr f)); simpl;
    (split; try discriminate; try reflexivity; intros Hyp;
     try (exfalso; intuition (first [lia | lra]));
     try (left; assumption); try (right; lia);
     try (split; [lra | lia]))).
Qed.

Lemma check_inputs_cases_witness :
  check_inputs (mkForm 50 165 140 190 0 EmptyString true) = NonPositive.
Proof.
  apply (proj1 (check_inputs_cases (mkForm 50 165 140 190 0 EmptyString true))).
  right. simpl. lia.
Defined.

(** X2.  What a pass over the script writes, for every form: no message
    when the form was not submitted, the success message when it was
    submitted and accepted, one error message when it was submitted and
    rejected; then the lactate chart and the VO2 chart; then the
    [ValueError] of line 79 ends the pass.  The energy chart, the zones
    subheader and the zone lines are written for no input. *)
Theorem pass_stops_at_line_79 (f : Form) :
  fst (script f []) = Raised ValueError /\
  existsb after_line_79 (snd (script f [])) = false /\
  (submitted f = false -> snd (script f []) = drawn_charts f) /\
  (submitted f = true -> check_inputs f = LooksGood ->
     snd (script f []) = st_success msg_good :: drawn_charts f) /\
  (submitted f = true -> check_inputs f = NonPositive ->
     snd (script f []) = st_error msg_non_positive :: drawn_charts f) /\
  (submitted f = true -> check_inputs f = Unordered ->
     snd (script f []) = st_error msg_unordered :: drawn_charts f).
Proof.
  rewrite script_stops; cbn [fst snd].
  split; [reflexivity|]. split.
  - unfold validation.
    destruct (submitted f); [destruct (check_inputs f)|]; reflexivity.
  - repeat split; intros Hs; try intros Hc;
      unfold validation; rewrite Hs, ?Hc; reflexivity.
Qed.

Lemma pass_stops_at_line_79_witness :
  submitted inverted = true /\ check_inputs inverted = Unordered /\
  snd (script inverted []) = st_error msg_unordered :: drawn_charts inverted.
Proof.
  split; [reflexivity|]. split; [reflexivity|].
  apply (proj2 (proj2 (proj2 (proj2 (proj2 (pass_stops_at_line_79 inverted))))));
    reflexivity.
Defined.

(** ** Lactate curve *)

Lemma Qltb_cancel (S x c : Q) : 0 < S -> Qltb (x * S) (c * S) = Qltb x c.
Proof.
  intros HS. destruct (Qltb x c) eqn:E.
  - apply Qltb_lt in E. apply Qltb_lt. apply Qmult_lt_compat_r; assumption.
  - apply Qltb_ge in E. apply Qltb_ge. apply Qmult_le_compat_r; lra.
Qed.

Lemma lactate_exact_scaled (S x : Q) :
  0 < S -> lactate_exact S (x * S) == shape x.
Proof.
  intros HS. unfold lactate_exact, shape.
  rewrite !Qltb_cancel by assumption.
  destruct (Qltb x 0.6); [field; lra|].
  destruct (Qltb x 0.9); field; lra.
Qed.

Lemma Forall2_map_same {A B C : Type} (R : B -> C -> Prop)
      (f : A -> B) (g : A -> C) (l : list A) :
  (forall x, R (f x) (g x)) -> Forall2 R (map f l) (map g l).
Proof. intros H. induction l; simpl; constructor; auto. Qed.

(** X3.  The 15 intensities are evenly spaced: sample [i] is
    [(0.4 + 0.05 i)] times the sprint power, from 40% to 110% of it. *)
Theorem intensities_grid (sp : Z) :
  List.length (intensities sp) = 15%nat /\
  (forall i : nat, (i < 15)%nat ->
     nth i (intensities sp) 0
     == (0.4 + 0.05 * inject_Z (Z.of_nat i)) * inject_Z sp) /\
  nth 0 (intensities sp) 0 == 0.4 * inject_Z sp /\
  nth 14 (intensities sp) 0 == 1.1 * inject_Z sp.
Proof.
  assert (Hnth : forall i : nat, (i < 15)%nat ->
            nth i (intensities sp) 0
            == (0.4 + 0.05 * inject_Z (Z.of_nat i)) * inject_Z sp).
  { intros i Hi. unfold intensities.
    rewrite (nth_map_lt _ (linspace 0.4 1.1 15) i 0) by exact Hi.
    apply Qmult_comp; [|reflexivity].
    do 15 (destruct i as [|i]; [vm_compute; reflexivity|]). lia. }
  split; [reflexivity|]. split; [exact Hnth|]. split.
  - rewrite Hnth by lia. apply Qmult_comp; reflexivity.
  - rewrite Hnth by lia. apply Qmult_comp; reflexivity.
Qed.

Lemma intensities_grid_witness :
  (4 < 15)%nat /\
  nth 4 (intensities 800) 0
  == (0.4 + 0.05 * inject_Z (Z.of_nat 4)) * inject_Z 800.
Proof.
  split; [lia|].
  apply (proj1 (proj2 (intensities_grid 800%Z)) 4%nat). lia.
Defined.

(** X4.  The lactate values do not depend on the athlete: for any two
    positive sprint powers the 15 values are pairwise equal, sample [i]
    being [shape] of the [i]-th relative intensity.  Only the intensity
    axis scales with the sprint power. *)
Theorem lactate_same_for_every_sprint_power (sp sp' : Z) :
  (0 < sp)%Z -> (0 < sp')%Z ->
  Forall2 same_value (lactate sp) (lactate sp') /\
  Forall2 (fun y x => same_value y (Fin (shape x)))
          (lactate sp) (linspace 0.4 1.1 15).
Proof.
  intros Hsp Hsp'.
  assert (Hq : forall z : Z, (0 < z)%Z -> 0 < inject_Z z).
  { intros z Hz. change 0 with (inject_Z 0). rewrite <- Zlt_Qlt. exact Hz. }
  assert (Hval : forall (z : Z) (x : Q), (0 < z)%Z ->
            same_value (lactate_at (inject_Z z) (x * inject_Z z))
                       (Fin (shape x))).
  { intros z x Hz. pose proof (Hq z Hz) as HS.
    rewrite lactate_at_finite by lra.
    apply same_value_Fin, lactate_exact_scaled, HS. }
  unfold lactate, intensities. rewrite !map_map. split.
  - apply Forall2_map_same. intros x.
    pose proof (Hval sp x Hsp) as H1. pose proof (Hval sp' x Hsp') as H2.
    rewrite lactate_at_finite in * by (pose proof (Hq sp Hsp); lra).
    rewrite (lactate_at_finite (inject_Z sp')) in *
      by (pose proof (Hq sp' Hsp'); lra).
    apply same_value_Fin in H1, H2. apply same_value_Fin.
    rewrite H1, H2. reflexivity.
  - rewrite <- (map_id (linspace 0.4 1.1 15)) at 2.
    apply Forall2_map_same. intros x. apply Hval, Hsp.
Qed.

Lemma lactate_same_for_every_sprint_power_witness :
  (0 < 800)%Z /\ (0 < 1200)%Z /\
  Forall2 same_value (lactate 800) (lactate 1200).
Proof.
  split; [reflexivity|]. split; [reflexivity|].
  apply (lactate_same_for_every_sprint_power 800 1200); reflexivity.
Defined.

(** Range of the loop body in exact arithmetic, for a positive sprint power
    [S]: at least 1 for [p >= 0]; below 1.5 under [0.6 S], in [[1.5, 3.5)]
    between [0.6 S] and [0.9 S], at least 3.5 from [0.9 S] on; and between
    4/3 and 8.5 on the sampled interval [[0.4 S, 1.1 S]]. *)
Lemma lactate_range_exact (S p : Q) :
  0 < S ->
  exists v : Q,
    lactate_at S p = Fin v /\
    (0 <= p -> 1 <= v) /\
    (0.4 * S <= p -> p <= 1.1 * S -> (4 # 3) <= v /\ v <= 8.5) /\
    (p < 0.6 * S -> v < 1.5) /\
    (0.6 * S <= p -> p < 0.9 * S -> 1.5 <= v /\ v < 3.5) /\
    (0.9 * S <= p -> 3.5 <= v).
Proof.
  intros HS. exists (lactate_exact S p).
  split; [apply lactate_at_finite; lra|].
  assert (Hsh : lactate_exact S p == shape (p / S))
    by (apply lactate_exact_shape, HS).
  assert (Hge : forall c, c * S <= p -> c <= p / S)
    by (intros c H; apply Qle_shift_div_l; assumption).
  assert (Hle : forall c, p <= c * S -> p / S <= c)
    by (intros c H; apply Qle_shift_div_r; assumption).
  assert (Hlt : forall c, p < c * S -> p / S < c)
    by (intros c H; apply Qlt_shift_div_r; assumption).
  assert (H0 : 0 <= p -> 0 <= p / S)
    by (intros H; apply Hge; lra).
  rewrite Hsh. unfold shape. set (u := p / S) in *.
  destruct (Qltb u 0.6) eqn:E6; destruct (Qltb u 0.9) eqn:E9;
    rewrite ?Qltb_lt, ?Qltb_ge in *;
    repeat split; intros;
    repeat match goal with
           | H : _ * S <= p |- _ => apply Hge in H
           | H : p <= _ * S |- _ => apply Hle in H
           | H : p < _ * S |- _ => apply Hlt in H
           | H : 0 <= p |- _ => apply H0 in H
           end; lra.
Qed.

(** ** VO2 kinetics *)

Lemma exp_double (x : R) : exp (2 * x) = (exp x * exp x)%R.
Proof. replace (2 * x)%R with (x + x)%R by Lra.lra. apply exp_plus. Qed.

(** Bounds on [e] by squaring [exp (1/256) >= 1 + 1/256] eight times, each
    square rounded down. *)
Lemma exp_1_lower : (2.7129 < exp 1)%R.
Proof.
  pose proof (exp_ineq1 (1 / 256)) as H0.
  assert (H : (1.00390625 <= exp (1 / 256))%R) by Lra.lra. clear H0.
  assert (E : exp 1
              = exp (2 * (2 * (2 * (2 * (2 * (2 * (2 * (2 * (1 / 256))))))))))
    by (f_equal; Lra.lra).
  rewrite E; clear E.
  rewrite !exp_double.
  set (y := exp (1 / 256)) in *.
  assert (H1 : (1.007827758 <= y * y)%R) by Lra.nra.
  set (y1 := (y * y)%R) in *.
  assert (H2 : (1.015716789 <= y1 * y1)%R) by Lra.nra.
  set (y2 := (y1 * y1)%R) in *.
  assert (H3 : (1.031680595 <= y2 * y2)%R) by Lra.nra.
  set (y3 := (y2 * y2)%R) in *.
  assert (H4 : (1.06436485 <= y3 * y3)%R) by Lra.nra.
  set (y4 := (y3 * y3)%R) in *.
  assert (H5 : (1.132872533 <= y4 * y4)%R) by Lra.nra.
  set (y5 := (y4 * y4)%R) in *.
  assert (H6 : (1.283400176 <= y5 * y5)%R) by Lra.nra.
  set (y6 := (y5 * y5)%R) in *.
  assert (H7 : (1.647116011 <= y6 * y6)%R) by Lra.nra.
  set (y7 := (y6 * y6)%R) in *.
  Lra.nra.
Qed.

Lemma exp_m1_lower : (0.3671 < exp (- 1))%R.
Proof.
  pose proof (exp_ineq1 (- (1 / 256))) as H0.
  assert (H : (0.99609375 <= exp (- (1 / 256)))%R) by Lra.lra. clear H0.
  assert (E : exp (- 1)
              = exp (2 * (2 * (2 * (2 * (2 * (2 * (2 * (2 *
                      (- (1 / 256)))))))))))
    by (f_equal; Lra.lra).
  rewrite E; clear E.
  rewrite !exp_double.
  set (y := exp (- (1 / 256))) in *.
  assert (H1 : (0.992202758 <= y * y)%R) by Lra.nra.
  set (y1 := (y * y)%R) in *.
  assert (H2 : (0.984466312 <= y1 * y1)%R) by Lra.nra.
  set (y2 := (y1 * y1)%R) in *.
  assert (H3 : (0.969173919 <= y2 * y2)%R) by Lra.nra.
  set (y3 := (y2 * y2)%R) in *.
  assert (H4 : (0.939298085 <= y3 * y3)%R) by Lra.nra.
  set (y4 := (y3 * y3)%R) in *.
  assert (H5 : (0.882280892 <= y4 * y4)%R) by Lra.nra.
  set (y5 := (y4 * y4)%R) in *.
  assert (H6 : (0.778419572 <= y5 * y5)%R) by Lra.nra.
  set (y6 := (y5 * y5)%R) in *.
  assert (H7 : (0.60593703 <= y6 * y6)%R) by Lra.nra.
  set (y7 := (y6 * y6)%R) in *.
  Lra.nra.
Qed.

Lemma exp_m1_upper : (exp (- 1) < 0.3687)%R.
Proof.
  replace (- 1)%R with (- (1))%R by Lra.lra.
  rewrite exp_Ropp. pose proof exp_1_lower as H.
  assert (H0 : (0 < exp 1)%R) by apply exp_pos.
  apply (Rmult_lt_reg_r (exp 1)); [exact H0|].
  rewrite Rinv_l by Lra.lra. Lra.nra.
Qed.

Lemma time_nth (i : nat) :
  (i < 60)%nat -> nth i time 0%Z = (5 * Z.of_nat i)%Z.
Proof.
  intros Hi. rewrite time_samples.
  rewrite (nth_map_lt _ (seq 0 60) i 0%nat) by (rewrite length_seq; exact Hi).
  rewrite seq_nth by exact Hi. reflexivity.
Qed.

Lemma vo2_actual_nth (v : Q) (i : nat) :
  (i < 60)%nat ->
  nth i (vo2_actual v) 0%R = vo2_actual_at v (5 * Z.of_nat i).
Proof.
  intros Hi. unfold vo2_actual.
  rewrite (nth_map_lt _ time i 0%Z) by exact Hi.
  rewrite time_nth by exact Hi. reflexivity.
Qed.

Lemma Q2R_steady_pos (v : Q) : 0 < v -> (0 < Q2R (vo2_steady v))%R.
Proof.
  intros Hv. unfold vo2_steady. rewrite Q2R_mult. apply Qlt_Rlt in Hv.
  rewrite RMicromega.Q2R_0 in Hv.
  apply Rmult_lt_0_compat; [exact Hv|]. unfold Q2R; simpl; Lra.lra.
Qed.

Lemma vo2_actual_at_incr (v : Q) (s t : Z) :
  0 < v -> (s < t)%Z -> (vo2_actual_at v s < vo2_actual_at v t)%R.
Proof.
  intros Hv Hst. unfold vo2_actual_at, tau.
  pose proof (Q2R_steady_pos v Hv) as Hs.
  assert (He : (exp (- IZR t / 40) < exp (- IZR s / 40))%R).
  { apply exp_increasing. apply IZR_lt in Hst. Lra.lra. }
  Lra.nra.
Qed.

(** X6.  For a positive VO2max the uptake series starts at 0, rises
    strictly from each of its 60 samples to the next, and stays strictly
    below the steady state [0.85 vo2max]. *)
Theorem vo2_actual_rises (v : Q) :
  0 < v ->
  nth 0 (vo2_actual v) 0%R = 0%R /\
  (forall i j : nat, (i < j < 60)%nat ->
     (nth i (vo2_actual v) 0 < nth j (vo2_actual v) 0)%R) /\
  (forall i : nat, (i < 60)%nat ->
     (nth i (vo2_actual v) 0 < Q2R (vo2_steady v))%R).
Proof.
  intros Hv. split; [|split].
  - rewrite vo2_actual_nth by lia. unfold vo2_actual_at, tau. simpl IZR.
    replace (- 0 / 40)%R with 0%R by Lra.lra. rewrite exp_0. Lra.lra.
  - intros i j Hij. rewrite !vo2_actual_nth by lia.
    apply vo2_actual_at_incr; [exact Hv | lia].
  - intros i Hi. rewrite vo2_actual_nth by exact Hi.
    apply vo2_actual_below_steady, Hv.
Qed.

Lemma vo2_actual_rises_witness :
  0 < 50 /\ (3 < 7 < 60)%nat /\
  (nth 3 (vo2_actual 50) 0 < nth 7 (vo2_actual 50) 0)%R.
Proof.
  split; [reflexivity|]. split; [lia|].
  apply (proj1 (proj2 (vo2_actual_rises 50 eq_refl)) 3%nat 7%nat). lia.
Defined.

(** X7.  The time constant: the sample at [t = tau = 40 s] (index 8) lies
    between 63% and 64% of the steady state, as the comment on [tau] says
    (about 63% of the final VO2). *)
Theorem vo2_actual_at_tau (v : Q) :
  0 < v ->
  nth 8 time 0%Z = tau /\
  (0.63 * Q2R (vo2_steady v) < nth 8 (vo2_actual v) 0)%R /\
  (nth 8 (vo2_actual v) 0 < 0.64 * Q2R (vo2_steady v))%R.
Proof.
  intros Hv. split; [reflexivity|].
  rewrite vo2_actual_nth by lia. unfold vo2_actual_at, tau.
  pose proof (Q2R_steady_pos v Hv) as Hs.
  replace (- IZR (5 * Z.of_nat 8) / IZR 40)%R with (- 1)%R
    by (simpl; Lra.lra).
  pose proof exp_m1_lower. pose proof exp_m1_upper.
  split; Lra.nra.
Qed.

Lemma vo2_actual_at_tau_witness :
  0 < 50 /\ (0.63 * Q2R (vo2_steady 50) < nth 8 (vo2_actual 50) 0)%R.
Proof.
  split; [reflexivity|].
  exact (proj1 (proj2 (vo2_actual_at_tau 50 eq_refl))).
Defined.

Lemma cast_int64_floor (q : Q) :
  0 <= q -> q < inject_Z (2 ^ 63) -> cast_int64 q = Qfloor q.
Proof.
  intros H0 Hmax. unfold cast_int64, Qtrunc.
  replace (0 <=? Qnum q)%Z with true
    by (symmetry; apply Z.leb_le, Qnum_nonneg, H0).
  assert (Hlo : (0 <= Qfloor q)%Z).
  { rewrite <- (Qfloor_Z 0). apply Qfloor_resp_le. exact H0. }
  assert (Hhi : (Qfloor q < 2 ^ 63)%Z).
  { rewrite Zlt_Qlt.
    apply Qle_lt_trans with q; [apply Qfloor_le | exact Hmax]. }
  unfold int64_min, int64_max.
  replace ((- 2 ^ 63 <=? Qfloor q) && (Qfloor q <=? 2 ^ 63 - 1))%Z%bool
    with true; [reflexivity|].
  symmetry. apply andb_true_iff. split; apply Z.leb_le; lia.
Qed.

(** X8.  The demand series is the steady state rounded down: for a
    VO2max >= 0 whose steady state fits an [int64], each of the 60 entries
    [d] satisfies [d <= 0.85 vo2max < d + 1].  The plotted demand is never
    above the steady state and less than 1 below it. *)
Theorem o2_demand_rounds_down (v : Q) :
  0 <= v -> vo2_steady v < inject_Z (2 ^ 63) ->
  List.length (o2_demand v) = 60%nat /\
  Forall (fun d : Z =>
            inject_Z d <= vo2_steady v /\ vo2_steady v < inject_Z (d + 1))
         (o2_demand v).
Proof.
  intros Hv Hmax. split; [reflexivity|].
  assert (Hs : 0 <= vo2_steady v) by (unfold vo2_steady; lra).
  rewrite o2_demand_constant, (cast_int64_floor _ Hs Hmax).
  apply Forall_forall. intros d Hd. apply repeat_spec in Hd. subst d.
  split; [apply Qfloor_le | apply Qlt_floor].
Qed.

Lemma o2_demand_rounds_down_witness :
  0 <= 47.3 /\ vo2_steady 47.3 < inject_Z (2 ^ 63) /\
  List.length (o2_demand 47.3) = 60%nat.
Proof.
  assert (H0 : 0 <= 47.3) by discriminate.
  assert (H1 : vo2_steady 47.3 < inject_Z (2 ^ 63)) by reflexivity.
  split; [exact H0|]. split; [exact H1|].
  exact (proj1 (o2_demand_rounds_down 47.3 H0 H1)).
Defined.

(** X9.  When the steady state [0.85 vo2max] is a whole number (VO2max 20,
    40, 60, ...) the cast loses nothing and the uptake stays strictly below
    the demand at all 60 samples. *)
Theorem whole_steady_state_keeps_order (v : Q) (n : Z) :
  0 < v -> vo2_steady v == inject_Z n -> (n < 2 ^ 63)%Z ->
  forall i : nat, (i < 60)%nat ->
    (nth i (vo2_actual v) 0 < IZR (nth i (o2_demand v) 0%Z))%R.
Proof.
  intros Hv Hn Hmax i Hi.
  assert (Hs : 0 <= vo2_steady v) by (unfold vo2_steady; lra).
  assert (Hlt : vo2_steady v < inject_Z (2 ^ 63))
    by (rewrite Hn, <- Zlt_Qlt; exact Hmax).
  rewrite o2_demand_constant, (cast_int64_floor _ Hs Hlt).
  rewrite (Qfloor_comp _ _ Hn), Qfloor_Z.
  rewrite nth_repeat_lt by exact Hi.
  rewrite vo2_actual_nth by exact Hi.
  replace (IZR n) with (Q2R (vo2_steady v)).
  - apply vo2_actual_below_steady, Hv.
  - rewrite (Qeq_eqR _ _ Hn). unfold Q2R, inject_Z; simpl. Lra.lra.
Qed.

Lemma whole_steady_state_keeps_order_witness :
  0 < 60 /\ vo2_steady 60 == inject_Z 51 /\ (51 < 2 ^ 63)%Z /\
  (59 < 60)%nat /\
  (nth 59 (vo2_actual 60) 0 < IZR (nth 59 (o2_demand 60) 0%Z))%R.
Proof.
  split; [reflexivity|]. split; [reflexivity|]. split; [reflexivity|].
  split; [lia|].
  apply (whole_steady_state_keeps_order 60 51);
    [reflexivity | reflexivity | reflexivity | lia].
Defined.

(** ** Fuel split *)

Lemma fat_pct_linear_part (x : Q) :
  80 - 8 * (x - 50) / 5 == 160 - (8 # 5) * x.
Proof. field. Qed.

(** X10.  [np.clip] keeps the fat share within 0..80 and the carbohydrate
    share within 20..100 at every intensity.  Up to 50% intensity the fat
    share is 80, from 100% on it is 0, and in between the clip is idle: the
    share falls linearly, [160 - 1.6 x]. *)
Theorem fat_pct_clipped (x : Q) :
  (0 <= fat_pct_at x /\ fat_pct_at x <= 80) /\
  (20 <= carb_pct_at x /\ carb_pct_at x <= 100) /\
  (x <= 50 -> fat_pct_at x == 80) /\
  (50 <= x -> x <= 100 -> fat_pct_at x == 160 - (8 # 5) * x) /\
  (100 <= x -> fat_pct_at x == 0).
Proof.
  unfold carb_pct_at, fat_pct_at, clip. rewrite fat_pct_linear_part.
  set (y := 160 - (8 # 5) * x).
  assert (Hy : y == 160 - (8 # 5) * x) by reflexivity. clearbody y.
  destruct (Q.max_spec y 0) as [[H1 E1]|[H1 E1]];
    destruct (Q.min_spec (Qmax y 0) 80) as [[H2 E2]|[H2 E2]];
    rewrite E2, ?E1 in *; repeat split; intros; lra.
Qed.

Lemma fat_pct_clipped_witness :
  50 <= 75 /\ 75 <= 100 /\ fat_pct_at 75 == 160 - (8 # 5) * 75.
Proof.
  split; [discriminate|]. split; [discriminate|].
  apply (proj1 (proj2 (proj2 (proj2 (fat_pct_clipped 75)))));
    discriminate.
Defined.






(** ** Heart-rate zones *)


(** ** Where the uptake crosses the plotted demand *)

Lemma exp_295_40_sharper : (1000 < exp (295 / 40))%R.
Proof.
  pose proof (exp_ineq1 (295 / 2560)) as H0.
  assert (H : (1.115234375 <= exp (295 / 2560))%R) by Lra.lra. clear H0.
  assert (E : exp (295 / 40)
              = exp (2 * (2 * (2 * (2 * (2 * (2 * (295 / 2560))))))))
    by (f_equal; Lra.lra).
  rewrite E; clear E. rewrite !exp_double.
  set (y := exp (295 / 2560)) in *.
  assert (H1 : (1.243747711 <= y * y)%R) by Lra.nra.
  set (y1 := (y * y)%R) in *.
  assert (H2 : (1.546908368 <= y1 * y1)%R) by Lra.nra.
  set (y2 := (y1 * y1)%R) in *.
  assert (H3 : (2.392925498 <= y2 * y2)%R) by Lra.nra.
  set (y3 := (y2 * y2)%R) in *.
  assert (H4 : (5.726092438 <= y3 * y3)%R) by Lra.nra.
  set (y4 := (y3 * y3)%R) in *.
  assert (H5 : (32.788134608 <= y4 * y4)%R) by Lra.nra.
  set (y5 := (y4 * y4)%R) in *.
  Lra.nra.
Qed.

(** X13.  Whenever the fraction the cast drops from the steady state is
    more than a thousandth of the steady state, the last uptake sample
    (t = 295 s) lies above the plotted demand. *)
Theorem fractional_steady_state_crosses (v : Q) :
  0 < v -> vo2_steady v < inject_Z (2 ^ 63) ->
  vo2_steady v < 1000 * (vo2_steady v - inject_Z (Qfloor (vo2_steady v))) ->
  nth 59 time 0%Z = 295%Z /\
  (IZR (nth 59 (o2_demand v) 0%Z) < nth 59 (vo2_actual v) 0)%R.
Proof.
  intros Hv Hmax Hfrac. split; [reflexivity|].
  assert (Hs : 0 <= vo2_steady v) by (unfold vo2_steady; lra).
  rewrite o2_demand_constant, (cast_int64_floor _ Hs Hmax).
  rewrite nth_repeat_lt by lia.
  rewrite vo2_actual_nth by lia. unfold vo2_actual_at, tau.
  replace (- IZR (5 * Z.of_nat 59) / IZR 40)%R with (- (295 / 40))%R
    by (simpl; Lra.lra).
  rewrite exp_Ropp.
  pose proof exp_295_40_sharper as He.
  set (d := Qfloor (vo2_steady v)) in *.
  apply Qlt_Rlt in Hfrac.
  rewrite Q2R_mult, Q2R_minus in Hfrac.
  replace (Q2R 1000) with 1000%R in Hfrac by (unfold Q2R; simpl; Lra.lra).
  replace (Q2R (inject_Z d)) with (IZR d) in Hfrac
    by (unfold Q2R, inject_Z; simpl; Lra.lra).
  pose proof (Q2R_steady_pos v Hv) as Hpos.
  set (s := Q2R (vo2_steady v)) in *.
  assert (Hinv : (/ exp (295 / 40) < / 1000)%R).
  { apply Rinv_lt_contravar; [|exact He].
    apply Rmult_lt_0_compat; Lra.lra. }
  assert (Hi0 : (0 < / exp (295 / 40))%R)
    by (apply Rinv_0_lt_compat; Lra.lra).
  Lra.nra.
Qed.

Lemma fractional_steady_state_crosses_witness :
  0 < 47.3 /\ vo2_steady 47.3 < inject_Z (2 ^ 63) /\
  vo2_steady 47.3
    < 1000 * (vo2_steady 47.3 - inject_Z (Qfloor (vo2_steady 47.3))) /\
  (IZR (nth 59 (o2_demand 47.3) 0%Z) < nth 59 (vo2_actual 47.3) 0)%R.
Proof.
  split; [reflexivity|]. split; [reflexivity|]. split; [reflexivity|].
  apply (fractional_steady_state_crosses 47.3); reflexivity.
Defined.

(** ** Strict monotonicity of the lactate loop body *)

Lemma shape_strict (u v : Q) : u < v -> shape u < shape v.
Proof.
  intros Huv. unfold shape.
  destruct (Qltb u 0.6) eqn:Eu1; destruct (Qltb v 0.6) eqn:Ev1;
    destruct (Qltb u 0.9) eqn:Eu2; destruct (Qltb v 0.9) eqn:Ev2;
    rewrite ?Qltb_lt, ?Qltb_ge in *; lra.
Qed.

(** In exact arithmetic the loop body is strictly increasing in the
    intensity, for a positive sprint power. *)
Lemma lactate_strict_exact (S p q : Q) :
  0 < S -> p < q ->
  exists a b : Q,
    lactate_at S p = Fin a /\ lactate_at S q = Fin b /\ a < b.
Proof.
  intros HS Hpq. exists (lactate_exact S p), (lactate_exact S q).
  split; [apply lactate_at_finite; lra|].
  split; [apply lactate_at_finite; lra|].
  rewrite !lactate_exact_shape by assumption.
  apply shape_strict. unfold Qdiv. apply Qmult_lt_compat_r; [|assumption].
  apply Qinv_lt_0_compat, HS.
Qed.

(** * The lactate curve on doubles *)

(** The statements of this section are about the binary64 arithmetic the
    script runs on.  Float literals carry [%float]; everything else is over
    [Q] as before. *)
Section OnDoubles.
Import PrimFloat.
#[local] Set Warnings "-inexact-float".

Lemma count_up_of_nat (m n : nat) :
  Binary64.count_up (Binary64.of_nat (S m)) n
  = map Binary64.of_nat (seq (S m) n).
Proof.
  revert m. induction n as [|n IH]; intros m; [reflexivity|].
  simpl seq. simpl map. cbn [Binary64.count_up]. f_equal.
  exact (IH (S m)).
Qed.

(** The sprint powers checked are the doubles of 1, 2, ..., 3000. *)
Lemma sprint_powers_range :
  Binary64.sprint_powers = map Binary64.of_nat (seq 1 3000).
Proof. exact (count_up_of_nat 0 3000). Qed.







(** X5.  Range of the lactate values.  In exact arithmetic, for a positive
    sprint power [S]: at least 1 for [p >= 0], below 1.5 under [0.6 S], in
    [[1.5, 3.5)] up to [0.9 S], at least 3.5 beyond, and between 4/3 and
    8.5 on the sampled interval.  On doubles the plotted values keep to
    [[4/3, 8.5]] only within 1e-9, which they do for every sprint power
    from 1 to 3000 W: the last sample for 800 W is 8.5000000000000036. *)
Theorem lactate_range_checked :
  (forall S p : Q, 0 < S ->
     exists v : Q,
       lactate_at S p = Fin v /\
       (0 <= p -> 1 <= v) /\
       (0.4 * S <= p -> p <= 1.1 * S -> (4 # 3) <= v /\ v <= 8.5) /\
       (p < 0.6 * S -> v < 1.5) /\
       (0.6 * S <= p -> p < 0.9 * S -> 1.5 <= v /\ v < 3.5) /\
       (0.9 * S <= p -> 3.5 <= v)) /\
  Binary64.sprint_powers = map Binary64.of_nat (seq 1 3000) /\
  forallb (fun S => forallb (Binary64.within (4 / 3) 8.5) (Binary64.lactate S))
          Binary64.sprint_powers = true /\
  nth 14 (Binary64.lactate 800) 0%float = 8.5000000000000036%float /\
  (8.5 <? nth 14 (Binary64.lactate 800) 0)%float = true.
Proof.
  split; [exact lactate_range_exact|].
  split; [exact sprint_powers_range|].
  split; [vm_compute; reflexivity|]. split; reflexivity.
Qed.

Lemma lactate_range_checked_witness :
  0 < 800 /\ exists v : Q, lactate_at 800 500 = Fin v /\ 1.5 <= v /\ v < 3.5.
Proof.
  split; [reflexivity|].
  destruct (proj1 lactate_range_checked 800 500)
    as (v & Hv & _ & _ & _ & Hmid & _); [reflexivity|].
  exists v. split; [exact Hv|]. apply Hmid; [discriminate | reflexivity].
Defined.

(** X14.  In exact arithmetic, for a positive sprint power, a higher
    intensity always gives a finite, strictly higher lactate value.  On
    doubles the increase is not strict: at 800 W the double just below 480
    and 480 itself both give 1.5. *)
Theorem lactate_strict_only_exact :
  (forall S p q : Q, 0 < S -> p < q ->
     exists a b : Q,
       lactate_at S p = Fin a /\ lactate_at S q = Fin b /\ a < b) /\
  (next_down 480 <? 480)%float = true /\
  Binary64.lactate_at 800 (next_down 480) = 1.5%float /\
  Binary64.lactate_at 800 480 = 1.5%float.
Proof.
  split; [exact lactate_strict_exact|]. repeat split; reflexivity.
Qed.

Lemma lactate_strict_only_exact_witness :
  0 < 800 /\ 320 < 480 /\
  exists a b : Q,
    lactate_at 800 320 = Fin a /\ lactate_at 800 480 = Fin b /\ a < b.
Proof.
  split; [reflexivity|]. split; [reflexivity|].
  apply (proj1 lactate_strict_only_exact 800 320 480); reflexivity.
Defined.

End OnDoubles.
